(** * globus_sdk.search.client: the SearchClient facade

    A shallow embedding of [src/globus_sdk/search/client.py].  Every method
    of [SearchClient] shapes its arguments, logs one line and hands one HTTP
    call to the base client.  The development follows that structure:

    - Python values, parameter dictionaries, JSON payloads and the request
      that reaches the transport;
    - the names [client.py] imports from [globus_sdk.base], as an interface
      ([GlobusBase]) the methods are written against;
    - the thirteen methods, line by line;
    - an instance of the interface that follows the written specification,
      the request pipeline of the base client, and a storage stub;
    - the properties. *)

From Stdlib Require Import ZArith String Ascii List DecimalString.
From stdpp Require Import base option list gmap strings.

(** ** Values *)

(** The Python values that occur as identifiers and as query-parameter
    values.  [PNone] is Python's [None]: the "unset" marker of keyword
    arguments such as [entry_id=None]. *)
Inductive pyval : Type :=
  | PNone
  | PBool (b : bool)
  | PInt (n : Z)
  | PStr (s : string).

(** A keyword dictionary ([**params]): parameter name to value. *)
Abbreviation dict := (gmap string pyval).

(** Request and response payloads: arbitrary JSON, passed through as is. *)
#[warnings="-register-all"]
Inductive json : Type :=
  | JNull
  | JBool (b : bool)
  | JNum (n : Z)
  | JStr (s : string)
  | JArr (items : list json)
  | JObj (fields : list (string * json)).

(** [d[key]] on a JSON object, [None] when the key or the object is missing;
    the first binding wins. *)
Fixpoint assoc_get (key : string) (fields : list (string * json)) : option json :=
  match fields with
  | [] => None
  | (k, v) :: rest => if String.eqb k key then Some v else assoc_get key rest
  end.

Definition json_get (key : string) (j : json) : option json :=
  match j with
  | JObj fields => assoc_get key fields
  | _ => None
  end.

(** ** What reaches the transport *)

Inductive verb : Type := GET | POST | PUT | DELETE.

(** One outbound call.  [req_params = None] is "no query parameters were
    given" (Python's [params=None]); [req_body = None] is "no body". *)
Record request : Type := Request {
  req_verb : verb;
  req_path : string;
  req_params : option dict;
  req_body : option json
}.

(** One [logger.info] call: the format string and the values formatted
    into it. *)
Record log_record : Type := LogInfo {
  log_fmt : string;
  log_args : list pyval
}.

(** The effects of one method call, in order: the line logged, then the
    request handed to the base client. *)
Record call : Type := Call {
  logged : log_record;
  sent : request
}.

(** Modelled from the spec: [BaseClient.get], [.post], [.put] and [.delete]
    are not in [client.py].  Section 2 and section 6 of the specification
    give them as "performs GET/POST/PUT/DELETE with a base URL, path, query
    parameters, and optional JSON body"; the call sites fix the argument
    order: [get(path, params=...)], [delete(path, params=...)],
    [post(path, data)], [put(path, data)]. *)
Definition get (path : string) (params : option dict) : request :=
  Request GET path params None.

Definition delete (path : string) (params : option dict) : request :=
  Request DELETE path params None.

Definition post (path : string) (data : json) : request :=
  Request POST path None (Some data).

Definition put (path : string) (data : json) : request :=
  Request PUT path None (Some data).

(** ** The names imported from [globus_sdk.base]

    [client.py] uses three helpers it does not define.  The methods below
    are written against this interface, so that what depends on the helpers
    and what does not stays visible.

    [merge_params base more] is called in two ways in [client.py]: as a
    statement, for its effect on the dictionary [base] (in [search]), and
    as an expression whose value is bound to [params] (in the subject and
    entry methods).  Its model therefore yields both: the dictionary [base]
    as the call leaves it, and the value the call returns ([None] for
    Python's [None]). *)
Class GlobusBase : Type := {
  safe_stringify : pyval → string;
  merge_params : dict → list (string * pyval) → dict * option dict;
  qjoin_path : list string → string
}.

(** ** SearchClient *)

Section SearchClient.
Context `{GlobusBase}.

(** [def get_index(self, index_id, **params)] *)
Definition get_index (index_id : pyval) (params : dict) : call :=
  let index_id := safe_stringify index_id in
  let line := LogInfo "SearchClient.get_index({})" [PStr index_id] in
  let path := qjoin_path ["v1/index"; index_id] in
  Call line (get path (Some params)).

(** [def search(self, index_id, q, offset=0, limit=10,
                query_template=None, advanced=False, **params)].
    An argument the caller leaves out is [None] here and takes the
    default of the signature. *)
Definition search (index_id q : pyval)
    (offset limit query_template advanced : option pyval)
    (params : dict) : call :=
  let offset := default (PInt 0) offset in
  let limit := default (PInt 10) limit in
  let query_template := default PNone query_template in
  let advanced := default (PBool false) advanced in
  let index_id := safe_stringify index_id in
  let params :=
    fst (merge_params params
           [("q", q); ("offset", offset); ("limit", limit);
            ("query_template", query_template); ("advanced", advanced)]) in
  let line := LogInfo "SearchClient.search({}, ...)" [PStr index_id] in
  let path := qjoin_path ["v1/index"; index_id; "search"] in
  Call line (get path (Some params)).

(** [def post_search(self, index_id, data)] *)
Definition post_search (index_id : pyval) (data : json) : call :=
  let index_id := safe_stringify index_id in
  let line := LogInfo "SearchClient.post_search({}, ...)" [PStr index_id] in
  let path := qjoin_path ["v1/index"; index_id; "search"] in
  Call line (post path data).

(** [def ingest(self, index_id, data)] *)
Definition ingest (index_id : pyval) (data : json) : call :=
  let index_id := safe_stringify index_id in
  let line := LogInfo "SearchClient.ingest({}, ...)" [PStr index_id] in
  let path := qjoin_path ["v1/index"; index_id; "ingest"] in
  Call line (post path data).

(** [def delete_by_query(self, index_id, data)] *)
Definition delete_by_query (index_id : pyval) (data : json) : call :=
  let index_id := safe_stringify index_id in
  let line := LogInfo "SearchClient.delete_by_query({}, ...)" [PStr index_id] in
  let path := qjoin_path ["v1/index"; index_id; "delete_by_query"] in
  Call line (post path data).

(** [def get_subject(self, index_id, subject, **params)].
    [params = merge_params(params, subject=subject)] rebinds [params] to
    the value the helper returns. *)
Definition get_subject (index_id subject : pyval) (params : dict) : call :=
  let index_id := safe_stringify index_id in
  let params := snd (merge_params params [("subject", subject)]) in
  let line :=
    LogInfo "SearchClient.get_subject({}, {}, ...)" [PStr index_id; subject] in
  let path := qjoin_path ["v1/index"; index_id; "subject"] in
  Call line (get path params).

(** [def delete_subject(self, index_id, subject, **params)] *)
Definition delete_subject (index_id subject : pyval) (params : dict) : call :=
  let index_id := safe_stringify index_id in
  let params := snd (merge_params params [("subject", subject)]) in
  let line :=
    LogInfo "SearchClient.delete_subject({}, {}, ...)" [PStr index_id; subject] in
  let path := qjoin_path ["v1/index"; index_id; "subject"] in
  Call line (delete path params).

(** [def get_entry(self, index_id, subject, entry_id=None, **params)] *)
Definition get_entry (index_id subject : pyval) (entry_id : option pyval)
    (params : dict) : call :=
  let entry_id := default PNone entry_id in
  let index_id := safe_stringify index_id in
  let params :=
    snd (merge_params params [("subject", subject); ("entry_id", entry_id)]) in
  let line :=
    LogInfo "SearchClient.get_entry({}, {}, {}, ...)"
         [PStr index_id; subject; entry_id] in
  let path := qjoin_path ["v1/index"; index_id; "entry"] in
  Call line (get path params).

(** [def create_entry(self, index_id, data)] *)
Definition create_entry (index_id : pyval) (data : json) : call :=
  let index_id := safe_stringify index_id in
  let line := LogInfo "SearchClient.create_entry({}, ...)" [PStr index_id] in
  let path := qjoin_path ["v1/index"; index_id; "entry"] in
  Call line (post path data).

(** [def update_entry(self, index_id, data)] *)
Definition update_entry (index_id : pyval) (data : json) : call :=
  let index_id := safe_stringify index_id in
  let line := LogInfo "SearchClient.update_entry({}, ...)" [PStr index_id] in
  let path := qjoin_path ["v1/index"; index_id; "entry"] in
  Call line (put path data).

(** [def delete_entry(self, index_id, subject, entry_id=None, **params)] *)
Definition delete_entry (index_id subject : pyval) (entry_id : option pyval)
    (params : dict) : call :=
  let entry_id := default PNone entry_id in
  let index_id := safe_stringify index_id in
  let params :=
    snd (merge_params params [("subject", subject); ("entry_id", entry_id)]) in
  let line :=
    LogInfo "SearchClient.delete_entry({}, {}, {}, ...)"
         [PStr index_id; subject; entry_id] in
  let path := qjoin_path ["v1/index"; index_id; "entry"] in
  Call line (delete path params).

(** [def get_query_template(self, index_id, template_name)] *)
Definition get_query_template (index_id : pyval) (template_name : string)
    : call :=
  let index_id := safe_stringify index_id in
  let line :=
    LogInfo "SearchClient.get_query_template({}, {})"
         [PStr index_id; PStr template_name] in
  let path :=
    qjoin_path ["v1/index"; index_id; "query_template"; template_name] in
  Call line (get path None).

(** [def get_query_template_list(self, index_id)] *)
Definition get_query_template_list (index_id : pyval) : call :=
  let index_id := safe_stringify index_id in
  let line :=
    LogInfo "SearchClient.get_query_template_list({})" [PStr index_id] in
  let path := qjoin_path ["v1/index"; index_id; "query_template"] in
  Call line (get path None).

End SearchClient.

(** The methods as one type, for statements about "every operation". *)
Inductive operation : Type :=
  | OpGetIndex (index_id : pyval) (params : dict)
  | OpSearch (index_id q : pyval)
      (offset limit query_template advanced : option pyval) (params : dict)
  | OpPostSearch (index_id : pyval) (data : json)
  | OpIngest (index_id : pyval) (data : json)
  | OpDeleteByQuery (index_id : pyval) (data : json)
  | OpGetSubject (index_id subject : pyval) (params : dict)
  | OpDeleteSubject (index_id subject : pyval) (params : dict)
  | OpGetEntry (index_id subject : pyval) (entry_id : option pyval) (params : dict)
  | OpCreateEntry (index_id : pyval) (data : json)
  | OpUpdateEntry (index_id : pyval) (data : json)
  | OpDeleteEntry (index_id subject : pyval) (entry_id : option pyval)
      (params : dict)
  | OpGetQueryTemplate (index_id : pyval) (template_name : string)
  | OpGetQueryTemplateList (index_id : pyval).

Definition invoke `{GlobusBase} (op : operation) : call :=
  match op with
  | OpGetIndex i ps => get_index i ps
  | OpSearch i q off lim qt adv ps => search i q off lim qt adv ps
  | OpPostSearch i d => post_search i d
  | OpIngest i d => ingest i d
  | OpDeleteByQuery i d => delete_by_query i d
  | OpGetSubject i s ps => get_subject i s ps
  | OpDeleteSubject i s ps => delete_subject i s ps
  | OpGetEntry i s e ps => get_entry i s e ps
  | OpCreateEntry i d => create_entry i d
  | OpUpdateEntry i d => update_entry i d
  | OpDeleteEntry i s e ps => delete_entry i s e ps
  | OpGetQueryTemplate i n => get_query_template i n
  | OpGetQueryTemplateList i => get_query_template_list i
  end.

(** The index identifier an operation was called with. *)
Definition op_index_id (op : operation) : pyval :=
  match op with
  | OpGetIndex i _ | OpSearch i _ _ _ _ _ _ | OpPostSearch i _ | OpIngest i _
  | OpDeleteByQuery i _ | OpGetSubject i _ _ | OpDeleteSubject i _ _
  | OpGetEntry i _ _ _ | OpCreateEntry i _ | OpUpdateEntry i _
  | OpDeleteEntry i _ _ _ | OpGetQueryTemplate i _ | OpGetQueryTemplateList i => i
  end.

(** ** Class attributes and the constructor *)

(** The authorizer classes: the three [client.py] imports, and the
    basic-auth one the comment "disallow basic auth" is about. *)
Inductive authorizer_type : Type :=
  | AccessTokenAuthorizer
  | RefreshTokenAuthorizer
  | ClientCredentialsAuthorizer
  | BasicAuthorizer.

#[global] Instance authorizer_type_eq_dec : EqDecision authorizer_type.
Proof. solve_decision. Defined.

(** An authorizer object, with the credentials it was built from. *)
Inductive authorizer : Type :=
  | AccessToken (access_token : string)
  | RefreshToken (refresh_token : string)
  | ClientCredentials (client_id client_secret : string)
  | Basic (username password : string).

Definition type_of (a : authorizer) : authorizer_type :=
  match a with
  | AccessToken _ => AccessTokenAuthorizer
  | RefreshToken _ => RefreshTokenAuthorizer
  | ClientCredentials _ _ => ClientCredentialsAuthorizer
  | Basic _ _ => BasicAuthorizer
  end.

(** [allowed_authorizer_types = [AccessTokenAuthorizer,
     RefreshTokenAuthorizer, ClientCredentialsAuthorizer]] *)
Definition allowed_authorizer_types : list authorizer_type :=
  [AccessTokenAuthorizer; RefreshTokenAuthorizer; ClientCredentialsAuthorizer].

(** What a call can raise. *)
Inductive sdk_error : Type :=
  | UsageError (reason : string)
  | NetworkError (detail : string)
  | SearchAPIError (http_status : Z) (code : option string)
      (message : option string).

(** [error_class = exc.SearchAPIError] *)
Definition error_class : Z → option string → option string → sdk_error :=
  SearchAPIError.

(** [default_response_class = GlobusHTTPResponse]: the parsed body and the
    numeric status. *)
Record GlobusHTTPResponse : Type := Response {
  data : json;
  status_code : Z
}.

Definition default_response_class : json → Z → GlobusHTTPResponse := Response.

Inductive outcome (A : Type) : Type :=
  | Returns (a : A)
  | Raises (e : sdk_error).
Arguments Returns {A} a.
Arguments Raises {A} e.

(** A constructed client: the service name, the authorizer and the
    remaining keyword arguments. *)
Record client : Type := Client {
  service : string;
  client_authorizer : option authorizer;
  client_options : dict
}.

(** Modelled from the spec: [BaseClient.__init__] is not in [client.py].
    Section 6 of the specification: "client-credential basic-auth is
    explicitly disallowed for this API -- only token-bearing authorizer
    variants are accepted".  An authorizer whose class is not among the
    allowed ones is refused; the argument defaults to [None] in the
    signature of [SearchClient.__init__], and then there is nothing to
    check. *)
Definition BaseClient_init (allowed : list authorizer_type)
    (service : string) (authorizer : option authorizer) (kwargs : dict)
    : outcome client :=
  match authorizer with
  | Some a =>
      if bool_decide (type_of a ∈ allowed)
      then Returns (Client service authorizer kwargs)
      else Raises (UsageError "authorizer type not allowed")
  | None => Returns (Client service None kwargs)
  end.

(** [def __init__(self, authorizer=None, **kwargs):
       BaseClient.__init__(self, "search", authorizer=authorizer, **kwargs)] *)
Definition SearchClient_init (authorizer : option authorizer) (kwargs : dict)
    : outcome client :=
  BaseClient_init allowed_authorizer_types "search" authorizer kwargs.

(** ** The helpers, as the specification describes them *)

(** Modelled from the spec: [safe_stringify] is not in [client.py].
    Section 3: the identifier "must be coerced to string form before use in
    a path".  A string is its own string form; the other values print as
    Python's [str] prints them. *)
Definition py_str (v : pyval) : string :=
  match v with
  | PNone => "None"
  | PBool true => "True"
  | PBool false => "False"
  | PInt n => NilZero.string_of_int (Z.to_int n)
  | PStr s => s
  end.

(** Modelled from the spec: [merge_params] is not in [client.py].
    Section 4.1: the named parameters "are merged into the caller-supplied
    parameter mapping; any parameter whose value is absent (unset) is
    dropped before transmission". *)
Fixpoint merge_into (base : dict) (more : list (string * pyval)) : dict :=
  match more with
  | [] => base
  | (name, PNone) :: rest => merge_into base rest
  | (name, value) :: rest => merge_into (<[name := value]> base) rest
  end.

(** Modelled from the spec: the result of [merge_params] is not in
    [client.py].  Section 4.1 gives the helper one effect, on "the
    caller-supplied parameter mapping", and no result; [search] calls it
    as a statement, for that effect alone.  A Python function that gives
    no result returns [None]. *)
Definition spec_merge_params (base : dict) (more : list (string * pyval))
    : dict * option dict :=
  (merge_into base more, None).

(** Modelled from the spec: [BaseClient.qjoin_path] is not in [client.py].
    Section 4.1: "segments are joined with a single separator after
    trimming, producing exactly one instance of the separator between
    segments"; the operation table roots every path at the separator
    ([/v1/index/{id}]). *)
Definition is_sep (c : ascii) : bool := Ascii.eqb c "/".

Fixpoint lstrip_sep (s : string) : string :=
  match s with
  | String c rest => if is_sep c then lstrip_sep rest else s
  | EmptyString => EmptyString
  end.

Fixpoint rstrip_sep (s : string) : string :=
  match s with
  | String c rest =>
      match rstrip_sep rest with
      | EmptyString => if is_sep c then EmptyString else String c EmptyString
      | kept => String c kept
      end
  | EmptyString => EmptyString
  end.

Definition trim_sep (s : string) : string := rstrip_sep (lstrip_sep s).

Fixpoint join_sep (segments : list string) : string :=
  match segments with
  | [] => ""
  | [s] => s
  | s :: rest => s +:+ "/" +:+ join_sep rest
  end.

Definition spec_qjoin_path (parts : list string) : string :=
  "/" +:+ join_sep (trim_sep <$> parts).

#[global] Instance spec_base : GlobusBase := {
  safe_stringify := py_str;
  merge_params := spec_merge_params;
  qjoin_path := spec_qjoin_path
}.

(** ** The request pipeline of the base client *)

(** What the transport gives back: a reply with its status and parsed
    body, or a network failure. *)
Inductive wire : Type :=
  | Reply (status : Z) (body : json)
  | Failure (detail : string).

(** A transport with internal state [S] (a remote service, or a stub). *)
Definition transport (S : Type) : Type := request → S → wire * S.

Definition is_2xx (status : Z) : bool := (200 <=? status)%Z && (status <? 300)%Z.

Definition json_string (j : option json) : option string :=
  match j with
  | Some (JStr s) => Some s
  | _ => None
  end.

(** Modelled from the spec: the request method of [BaseClient] and the
    error translator are not in [client.py].  Section 7: a transport
    failure is "propagated unmodified"; a non-2xx status is "translated
    into a typed exception carrying status code, optional machine error
    code, and message extracted from the JSON error body"; otherwise the
    call "returns a ResponseWrapper". *)
Definition BaseClient_request {S : Type} (t : transport S) (r : request)
    (st : S) : outcome GlobusHTTPResponse * S :=
  let '(w, st') := t r st in
  match w with
  | Failure detail => (Raises (NetworkError detail), st')
  | Reply status body =>
      if is_2xx status
      then (Returns (default_response_class body status), st')
      else (Raises (error_class status
                      (json_string (json_get "code" body))
                      (json_string (json_get "message" body))), st')
  end.

(** A method call carried out over a transport: its request goes through
    the pipeline. *)
Definition perform `{GlobusBase} {S : Type} (t : transport S) (op : operation)
    (st : S) : outcome GlobusHTTPResponse * S :=
  BaseClient_request t (sent (invoke op)) st.

(** ** A stub of the entry store *)

(** Entries are filed under the request path (which names the index), the
    subject and the optional entry id. *)
Abbreviation store := (gmap (string * (string * option string)) json).

Fixpoint ends_with (suffix s : string) : bool :=
  String.eqb s suffix ||
  match s with
  | String _ rest => ends_with suffix rest
  | EmptyString => false
  end.

(** The key of an entry document: its ["subject"] and its ["id"], a
    missing or null id being the entry without sub-identifier. *)
Definition doc_key (doc : json) : option (string * option string) :=
  match json_get "subject" doc with
  | Some (JStr s) =>
      match json_get "id" doc with
      | None | Some JNull => Some (s, None)
      | Some (JStr e) => Some (s, Some e)
      | Some _ => None
      end
  | _ => None
  end.

(** The key a lookup asks for: its [subject] and [entry_id] parameters. *)
Definition params_key (params : option dict) : option (string * option string) :=
  match params with
  | Some m =>
      match m !! "subject" with
      | Some (PStr s) =>
          match m !! "entry_id" with
          | None => Some (s, None)
          | Some (PStr e) => Some (s, Some e)
          | Some _ => None
          end
      | _ => None
      end
  | None => None
  end.

Definition error_body (code message : string) : json :=
  JObj [("code", JStr code); ("message", JStr message)].

(** Modelled from the spec: the stub transport of the round-trip property
    of section 8 is not in [client.py].  It keeps what [POST .../entry]
    submits and gives it back to [GET .../entry] under the same subject and
    entry id; everything else is answered with an error status. *)
Definition entry_service : transport store :=
  λ r st,
    if ends_with "/entry" (req_path r) then
      match req_verb r with
      | POST =>
          match req_body r with
          | Some doc =>
              match doc_key doc with
              | Some k => (Reply 200 doc, <[(req_path r, k) := doc]> st)
              | None => (Reply 400 (error_body "BadRequest" "not an entry"), st)
              end
          | None => (Reply 400 (error_body "BadRequest" "no document"), st)
          end
      | GET =>
          match params_key (req_params r) with
          | Some k =>
              match st !! (req_path r, k) with
              | Some doc => (Reply 200 doc, st)
              | None => (Reply 404 (error_body "NotFound" "no such entry"), st)
              end
          | None => (Reply 400 (error_body "BadRequest" "no subject"), st)
          end
      | _ => (Reply 405 (error_body "MethodNotAllowed" "not stubbed"), st)
      end
    else (Reply 404 (error_body "NotFound" "no such resource"), st).

(** A stub transport that answers every request with [w] and records what
    it was handed. *)
Definition stub_transport (w : wire) : transport (list request) :=
  λ r seen, (w, seen ++ [r]).

(** ** Vocabulary of the properties *)

(** The pieces of a path between separators ([str.split("/")]). *)
Fixpoint split_sep (s : string) : list string :=
  match s with
  | EmptyString => [EmptyString]
  | String c rest =>
      if is_sep c then EmptyString :: split_sep rest
      else match split_sep rest with
           | piece :: pieces => String c piece :: pieces
           | [] => [String c EmptyString]
           end
  end.

(** The segments of a rooted path: the pieces after the leading
    separator. *)
Definition path_segments (path : string) : list string :=
  match split_sep path with
  | EmptyString :: pieces => pieces
  | pieces => pieces
  end.

Definition starts_with_sep (s : string) : bool :=
  match s with
  | String c _ => is_sep c
  | EmptyString => false
  end.

(** Two separators in a row somewhere in the string. *)
Fixpoint double_sep (s : string) : bool :=
  match s with
  | String c rest => (is_sep c && starts_with_sep rest) || double_sep rest
  | EmptyString => false
  end.



(** How many segments of the path equal [s]. *)
Definition occurrences (s : string) (path : string) : nat :=
  length (filter (λ seg, seg = s) (path_segments path)).

(** *** The operation table of the specification

    Section 4.1 lists, per operation, a verb and a path template.  This is
    that table, transcribed; [IdSlot] is [{id}] and [NameSlot] is
    [{name}]. *)
Inductive slot : Type :=
  | Lit (text : string)
  | IdSlot
  | NameSlot.

Definition operation_table (op : operation) : verb * list slot :=
  match op with
  | OpGetIndex _ _ => (GET, [Lit "v1"; Lit "index"; IdSlot])
  | OpSearch _ _ _ _ _ _ _ => (GET, [Lit "v1"; Lit "index"; IdSlot; Lit "search"])
  | OpPostSearch _ _ => (POST, [Lit "v1"; Lit "index"; IdSlot; Lit "search"])
  | OpIngest _ _ => (POST, [Lit "v1"; Lit "index"; IdSlot; Lit "ingest"])
  | OpDeleteByQuery _ _ =>
      (POST, [Lit "v1"; Lit "index"; IdSlot; Lit "delete_by_query"])
  | OpGetSubject _ _ _ => (GET, [Lit "v1"; Lit "index"; IdSlot; Lit "subject"])
  | OpDeleteSubject _ _ _ =>
      (DELETE, [Lit "v1"; Lit "index"; IdSlot; Lit "subject"])
  | OpGetEntry _ _ _ _ => (GET, [Lit "v1"; Lit "index"; IdSlot; Lit "entry"])
  | OpCreateEntry _ _ => (POST, [Lit "v1"; Lit "index"; IdSlot; Lit "entry"])
  | OpUpdateEntry _ _ => (PUT, [Lit "v1"; Lit "index"; IdSlot; Lit "entry"])
  | OpDeleteEntry _ _ _ _ =>
      (DELETE, [Lit "v1"; Lit "index"; IdSlot; Lit "entry"])
  | OpGetQueryTemplate _ _ =>
      (GET, [Lit "v1"; Lit "index"; IdSlot; Lit "query_template"; NameSlot])
  | OpGetQueryTemplateList _ =>
      (GET, [Lit "v1"; Lit "index"; IdSlot; Lit "query_template"])
  end.

Definition fill (id name : string) (s : slot) : string :=
  match s with
  | Lit text => text
  | IdSlot => id
  | NameSlot => name
  end.

(** A template with its slots filled, written out as a rooted path. *)
Definition instantiate (template : list slot) (id name : string) : string :=
  "/" +:+ join_sep (fill id name <$> template).


(** The template name an operation was called with (only
    [get_query_template] has one). *)
Definition op_template_name (op : operation) : string :=
  match op with
  | OpGetQueryTemplate _ name => name
  | _ => ""
  end.

(** Two requests that differ at most in the verb. *)
Definition same_up_to_verb (a b : request) : Prop :=
  req_path a = req_path b
  ∧ req_params a = req_params b
  ∧ req_body a = req_body b.

(** What "the request carries [subject]" means: the transport is handed
    exactly one request, the one the method built, and its parameters are
    the caller's mapping with [subject] bound to the caller's value. *)
Definition transmits_subject (op : operation) (s : pyval) (ps : dict) : Prop :=
  ∀ w : wire, ∃ (r : request) (m : dict),
    snd (perform (stub_transport w) op []) = [r]
    ∧ req_params r = Some m
    ∧ m !! "subject" = Some s
    ∧ ∀ k, k ≠ "subject" → m !! k = ps !! k.

(** What the transport is told about [entry_id]: nothing when the caller
    left it unset, the caller's value otherwise. *)
Definition entry_id_as_given (c : call) (entry_id : option pyval) : Prop :=
  ∃ m : dict, req_params (sent c) = Some m
    ∧ match default PNone entry_id with
      | PNone => m !! "entry_id" = None
      | value => m !! "entry_id" = Some value
      end.

(** The call of the search scenario: [search(index_id="abc-123",
    q="hello")]. *)
Definition search_scenario : operation :=
  OpSearch (PStr "abc-123") (PStr "hello") None None None None ∅.

(** "The [advanced] parameter is present in the transmitted set." *)
Definition advanced_transmitted (c : call) : Prop :=
  ∃ (m : dict) (value : pyval),
    req_params (sent c) = Some m ∧ m !! "advanced" = Some value.

(** The error body of the scenario. *)
Definition no_such_index : json :=
  JObj [("code", JStr "NotFound"); ("message", JStr "no such index")].

(** The token-bearing authorizers: static access token, refreshable
    token, client-credentials flow. *)
Definition token_bearing (a : authorizer) : Prop :=
  match a with
  | AccessToken _ | RefreshToken _ | ClientCredentials _ _ => True
  | Basic _ _ => False
  end.



(** The entry document of the docstring of [create_entry]. *)
Definition example_entry : json :=
  JObj [("subject", JStr "https://example.com/foo/bar");
        ("visible_to", JArr [JStr "public"]);
        ("id", JStr "foo/bar");
        ("content", JObj [("foo/bar", JStr "some val")])].

(** *** Vocabulary for all thirteen methods *)

(** The [data] argument of a call, for the methods that take one. *)
Definition op_data (op : operation) : option json :=
  match op with
  | OpPostSearch _ d | OpIngest _ d | OpDeleteByQuery _ d
  | OpCreateEntry _ d | OpUpdateEntry _ d => Some d
  | _ => None
  end.

(** The same call on another index identifier. *)
Definition with_index_id (i : pyval) (op : operation) : operation :=
  match op with
  | OpGetIndex _ ps => OpGetIndex i ps
  | OpSearch _ q off lim qt adv ps => OpSearch i q off lim qt adv ps
  | OpPostSearch _ d => OpPostSearch i d
  | OpIngest _ d => OpIngest i d
  | OpDeleteByQuery _ d => OpDeleteByQuery i d
  | OpGetSubject _ s ps => OpGetSubject i s ps
  | OpDeleteSubject _ s ps => OpDeleteSubject i s ps
  | OpGetEntry _ s e ps => OpGetEntry i s e ps
  | OpCreateEntry _ d => OpCreateEntry i d
  | OpUpdateEntry _ d => OpUpdateEntry i d
  | OpDeleteEntry _ s e ps => OpDeleteEntry i s e ps
  | OpGetQueryTemplate _ name => OpGetQueryTemplate i name
  | OpGetQueryTemplateList _ => OpGetQueryTemplateList i
  end.

(** The replacement fields [{}] of a format string: [str.format] raises
    when it is given fewer arguments than the string has fields. *)
Definition starts_with_char (c : ascii) (s : string) : bool :=
  match s with
  | String c' _ => Ascii.eqb c' c
  | EmptyString => false
  end.

Fixpoint placeholders (fmt : string) : nat :=
  match fmt with
  | String c rest =>
      (if Ascii.eqb c "{" && starts_with_char "}" rest then 1 else 0)
      + placeholders rest
  | EmptyString => 0
  end.

(** Helpers whose [merge_params] updates the dictionary and returns
    nothing, the way Python functions that update an argument in place
    usually do.  Used to exhibit what the methods do with such a helper. *)
Definition update_in_place_base : GlobusBase := {|
  safe_stringify := py_str;
  merge_params := λ base more, (merge_into base more, None);
  qjoin_path := spec_qjoin_path
|}.

(** * Properties *)

(** ** Data flow of the methods, whatever the helpers do *)

Section DataFlow.
Context `{GlobusBase}.

(** [get_subject] hands the transport the value [merge_params] returns. *)
Lemma get_subject_params (i s : pyval) (ps : dict) :
  req_params (sent (get_subject i s ps))
  = snd (merge_params ps [("subject", s)]).
Proof. reflexivity. Qed.

(** [search] hands the transport the dictionary [merge_params] worked on. *)
Lemma search_params (i q : pyval) (off lim qt adv : option pyval) (ps : dict) :
  req_params (sent (search i q off lim qt adv ps))
  = Some (fst (merge_params ps
                 [("q", q); ("offset", default (PInt 0) off);
                  ("limit", default (PInt 10) lim);
                  ("query_template", default PNone qt);
                  ("advanced", default (PBool false) adv)])).
Proof. reflexivity. Qed.

(** Were the helper to return nothing, the four methods that bind its
    value would pass no parameters at all. *)
Lemma bound_params_follow_helper (i s : pyval) (e : option pyval) (ps : dict) :
  (∀ base more, snd (merge_params base more) = None) →
  req_params (sent (get_subject i s ps)) = None
  ∧ req_params (sent (delete_subject i s ps)) = None
  ∧ req_params (sent (get_entry i s e ps)) = None
  ∧ req_params (sent (delete_entry i s e ps)) = None.
Proof. intros Hnone. cbn. rewrite !Hnone. done. Qed.

(** C10.  For every index identifier, subject, entry id and extra parameter
    mapping, [get_entry] and [delete_entry] hand the transport the same
    path and the same parameters, the one with GET and the other with
    DELETE; so do [get_subject] and [delete_subject].  This holds for any
    implementation of the imported helpers. *)
Theorem read_and_delete_build_same_request
    (i s : pyval) (e : option pyval) (ps : dict) :
  (same_up_to_verb (sent (get_entry i s e ps)) (sent (delete_entry i s e ps))
   ∧ req_verb (sent (get_entry i s e ps)) = GET
   ∧ req_verb (sent (delete_entry i s e ps)) = DELETE)
  ∧ (same_up_to_verb (sent (get_subject i s ps)) (sent (delete_subject i s ps))
     ∧ req_verb (sent (get_subject i s ps)) = GET
     ∧ req_verb (sent (delete_subject i s ps)) = DELETE).
Proof. repeat split. Qed.

End DataFlow.

(** ** Parameter merging *)

(** A name that is not merged keeps the binding it had. *)
Lemma merge_into_other (more : list (string * pyval)) (base : dict) (k : string) :
  k ∉ more.*1 → merge_into base more !! k = base !! k.
Proof.
  revert base. induction more as [|[name value] more IH]; intros base Hk.
  - reflexivity.
  - apply not_elem_of_cons in Hk as [Hne Hk]. cbn in Hne.
    destruct value; cbn; rewrite IH by assumption;
      try reflexivity; by rewrite lookup_insert_ne.
Qed.

(** A single named parameter with a value is inserted. *)
Lemma merge_into_one (base : dict) (name : string) (value : pyval) :
  value ≠ PNone → merge_into base [(name, value)] = <[name := value]> base.
Proof. by destruct value. Qed.

(** The stub transport sees the request of the method, once. *)
Lemma stub_transport_sees `{GlobusBase} (w : wire) (op : operation)
    (seen : list request) :
  snd (perform (stub_transport w) op seen) = seen ++ [sent (invoke op)].
Proof.
  unfold perform, BaseClient_request, stub_transport.
  destruct w as [status body|detail]; [destruct (is_2xx status)|]; reflexivity.
Qed.

(** C1 (the code departs from it).  The claim: for every index identifier
    and subject, [get_subject] and [delete_subject] hand the transport a
    parameter mapping with ['subject'] bound to the caller's subject.  The
    code: both rebind [params] to the result of [merge_params], which is
    [None], so for every index identifier, subject and caller-supplied
    mapping the transport is handed no parameters at all; in particular
    [get_subject("abc-123", "http://example.com/abc")] and the same call of
    [delete_subject] do not transmit the subject. *)
Theorem subject_is_not_transmitted :
  (∀ (i s : pyval) (ps : dict),
     req_params (sent (get_subject i s ps)) = None
     ∧ req_params (sent (delete_subject i s ps)) = None)
  ∧ ¬ transmits_subject
        (OpGetSubject (PStr "abc-123") (PStr "http://example.com/abc") ∅)
        (PStr "http://example.com/abc") ∅
  ∧ ¬ transmits_subject
        (OpDeleteSubject (PStr "abc-123") (PStr "http://example.com/abc") ∅)
        (PStr "http://example.com/abc") ∅.
Proof.
  split; [by intros i s ps|].
  split; intros Hclaim;
    destruct (Hclaim (Reply 200 JNull)) as (r & m & Hseen & Hparams & _);
    rewrite stub_transport_sees in Hseen;
    injection Hseen as <-; discriminate Hparams.
Qed.

(** C2 (the code departs from it).  The claim: [get_entry] and
    [delete_entry] hand the transport a mapping without ['entry_id'] when
    the caller left it unset, and with ['entry_id'] bound to the caller's
    value otherwise.  The code: both rebind [params] to the result of
    [merge_params], which is [None], so for every call the transport is
    handed no parameters at all; in particular
    [get_entry("abc-123", "https://example.com/foo/bar",
    entry_id="foo/bar")] and the same call of [delete_entry] do not
    transmit the entry id. *)
Theorem entry_id_is_not_transmitted :
  (∀ (i s : pyval) (e : option pyval) (ps : dict),
     req_params (sent (get_entry i s e ps)) = None
     ∧ req_params (sent (delete_entry i s e ps)) = None)
  ∧ ¬ entry_id_as_given
        (get_entry (PStr "abc-123") (PStr "https://example.com/foo/bar")
           (Some (PStr "foo/bar")) ∅)
        (Some (PStr "foo/bar"))
  ∧ ¬ entry_id_as_given
        (delete_entry (PStr "abc-123") (PStr "https://example.com/foo/bar")
           (Some (PStr "foo/bar")) ∅)
        (Some (PStr "foo/bar")).
Proof.
  split; [by intros i s e ps|].
  split; intros (m & Hparams & _); discriminate Hparams.
Qed.

(** C3.  With [offset] and [limit] left out, [search] transmits
    [offset = 0] and [limit = 10]; with [query_template] left out, the
    transmitted parameters have no [query_template] key; and
    [search(index_id="abc-123", q="hello")] hands the transport one GET
    request, to the path [v1/index/abc-123/search] under the root, with
    exactly the parameters [q = "hello"], [offset = 0], [limit = 10],
    [advanced = False], and no body.  ([query_template] is a parameter of
    the signature, so the [**params] collector cannot hold that name.) *)
Theorem search_defaults_and_scenario
    (i q : pyval) (off lim qt adv : option pyval) (ps : dict) :
  ps !! "query_template" = None →
  (∃ m : dict, req_params (sent (search i q None None qt adv ps)) = Some m
     ∧ m !! "offset" = Some (PInt 0) ∧ m !! "limit" = Some (PInt 10))
  ∧ (∃ m : dict, req_params (sent (search i q off lim None adv ps)) = Some m
       ∧ m !! "query_template" = None)
  ∧ (∀ w, snd (perform (stub_transport w) search_scenario [])
          = [Request GET ("/" +:+ "v1/index/abc-123/search")
               (Some (<["q" := PStr "hello"]>
                        (<["offset" := PInt 0]>
                           (<["limit" := PInt 10]>
                              {["advanced" := PBool false]}))))
               None])
  ∧ path_segments (req_path (sent (invoke search_scenario)))
    = ["v1"; "index"; "abc-123"; "search"].
Proof.
  intros Hps. split; [|split; [|split]].
  - eexists; split; [reflexivity|].
    destruct q, qt as [[]|], adv as [[]|]; cbn; by simplify_map_eq.
  - eexists; split; [reflexivity|].
    destruct q, off as [[]|], lim as [[]|], adv as [[]|]; cbn;
      by simplify_map_eq.
  - intros w. rewrite stub_transport_sees. reflexivity.
  - reflexivity.
Qed.

Lemma search_defaults_and_scenario_witness :
  (∅ : dict) !! "query_template" = None
  ∧ ∃ m : dict,
      req_params (sent (search (PStr "abc-123") (PStr "hello")
                          None None None None ∅)) = Some m
      ∧ m !! "offset" = Some (PInt 0) ∧ m !! "limit" = Some (PInt 10).
Proof.
  split; [reflexivity|].
  apply (search_defaults_and_scenario (PStr "abc-123") (PStr "hello")
           None None None None ∅).
  reflexivity.
Defined.

(** Merging looks at one name at a time. *)
Lemma merge_into_lookup_ext (more : list (string * pyval)) (base base' : dict)
    (k : string) :
  base !! k = base' !! k →
  merge_into base more !! k = merge_into base' more !! k.
Proof.
  revert base base'.
  induction more as [|[name value] more IH]; intros base base' Hk; [done|].
  destruct value; cbn; apply IH; try done;
    rewrite !lookup_insert; by case_decide.
Qed.

Lemma merge_into_skip (base : dict) (name k : string) (value : pyval)
    (rest : list (string * pyval)) :
  k ≠ name →
  merge_into base ((name, value) :: rest) !! k = merge_into base rest !! k.
Proof.
  intros Hne. destruct value; cbn; try done;
    apply merge_into_lookup_ext; by rewrite lookup_insert_ne.
Qed.

(** An explicit [advanced=None] is dropped like any unset parameter:
    [search("abc-123", "hello", advanced=None)] transmits no [advanced]. *)
Lemma advanced_none_is_dropped :
  ¬ advanced_transmitted
      (search (PStr "abc-123") (PStr "hello") None None None (Some PNone) ∅).
Proof.
  intros (m & value & Hm & Hvalue).
  injection Hm as <-. vm_compute in Hvalue. discriminate.
Qed.

(** C6, amended.  For every call to [search] that leaves [advanced] out or
    gives it a value other than [None], [advanced] is in the transmitted
    parameter set, bound to the caller's value, and to [False] when the
    caller left it out. *)
Theorem advanced_transmitted_unless_none
    (i q : pyval) (off lim qt adv : option pyval) (ps : dict) :
  adv ≠ Some PNone →
  advanced_transmitted (search i q off lim qt adv ps)
  ∧ ∃ m : dict, req_params (sent (search i q off lim qt adv ps)) = Some m
      ∧ m !! "advanced" = Some (default (PBool false) adv).
Proof.
  intros Hadv.
  assert (default (PBool false) adv ≠ PNone) as Hvalue
    by (destruct adv as [[]|]; cbn; congruence).
  assert (∃ m : dict, req_params (sent (search i q off lim qt adv ps)) = Some m
            ∧ m !! "advanced" = Some (default (PBool false) adv)) as Hm.
  { eexists; split; [reflexivity|].
    change (fst (merge_params ps ?more)) with (merge_into ps more).
    rewrite !merge_into_skip by done.
    rewrite merge_into_one by done. apply lookup_insert_eq. }
  split; [|exact Hm].
  destruct Hm as (m & ? & ?). by exists m, (default (PBool false) adv).
Qed.

Lemma advanced_transmitted_unless_none_witness :
  (None : option pyval) ≠ Some PNone
  ∧ ∃ m : dict,
      req_params (sent (search (PStr "abc-123") (PStr "hello")
                          None None None None ∅)) = Some m
      ∧ m !! "advanced" = Some (PBool false).
Proof.
  split; [discriminate|].
  apply (advanced_transmitted_unless_none (PStr "abc-123") (PStr "hello")
           None None None None ∅).
  discriminate.
Defined.

(** ** Errors *)

Lemma is_2xx_spec (status : Z) :
  is_2xx status = true ↔ (200 ≤ status < 300)%Z.
Proof. unfold is_2xx. rewrite andb_true_iff, Z.leb_le, Z.ltb_lt. done. Qed.

(** The pipeline on a reply: the wrapper on 2xx, the error class
    otherwise. *)
Lemma BaseClient_request_reply {S : Type} (t : transport S) (r : request)
    (st st' : S) (status : Z) (body : json) :
  t r st = (Reply status body, st') →
  fst (BaseClient_request t r st)
  = if is_2xx status
    then Returns (Response body status)
    else Raises (SearchAPIError status
                   (json_string (json_get "code" body))
                   (json_string (json_get "message" body))).
Proof.
  intros Ht. unfold BaseClient_request. rewrite Ht.
  by destruct (is_2xx status).
Qed.

(** C7.  For every operation and every transport reply: a status outside
    2xx makes the operation raise the client's error class,
    [SearchAPIError], with the reply's status, the ["code"] of the body
    when it has one, and the ["message"] of the body; the operation returns
    (a response wrapper holding the body and the status) exactly when the
    status is 2xx.  A reply of 404 with body
    [{"code": "NotFound", "message": "no such index"}] makes [get_index]
    raise an error with status 404 and message "no such index". *)
Theorem non_2xx_raises_api_error {S : Type} (t : transport S)
    (op : operation) (st st' : S) (status : Z) (body : json) :
  t (sent (invoke op)) st = (Reply status body, st') →
  (¬ (200 ≤ status < 300)%Z →
     fst (perform t op st)
     = Raises (SearchAPIError status
                 (json_string (json_get "code" body))
                 (json_string (json_get "message" body))))
  ∧ ((∃ resp, fst (perform t op st) = Returns resp)
       ↔ (200 ≤ status < 300)%Z)
  ∧ ((200 ≤ status < 300)%Z →
       fst (perform t op st) = Returns (Response body status))
  ∧ (∀ i ps,
       fst (perform (stub_transport (Reply 404 no_such_index))
              (OpGetIndex i ps) [])
       = Raises (SearchAPIError 404 (Some "NotFound") (Some "no such index"))).
Proof.
  intros Ht. unfold perform.
  rewrite (BaseClient_request_reply t _ st st' status body Ht).
  rewrite <- is_2xx_spec.
  destruct (is_2xx status); repeat split;
    first [done | by eexists | by intros [resp Hresp]].
Qed.

Lemma non_2xx_raises_api_error_witness :
  stub_transport (Reply 404 no_such_index)
    (sent (invoke (OpGetIndex (PStr "abc-123") ∅))) []
  = (Reply 404 no_such_index, [sent (invoke (OpGetIndex (PStr "abc-123") ∅))])
  ∧ fst (perform (stub_transport (Reply 404 no_such_index))
           (OpGetIndex (PStr "abc-123") ∅) [])
    = Raises (SearchAPIError 404 (Some "NotFound") (Some "no such index")).
Proof.
  split; [reflexivity|].
  refine (proj1 (non_2xx_raises_api_error
                   (stub_transport (Reply 404 no_such_index))
                   (OpGetIndex (PStr "abc-123") ∅) []
                   [sent (invoke (OpGetIndex (PStr "abc-123") ∅))]
                   404 no_such_index _) _).
  - reflexivity.
  - lia.
Defined.

(** A network failure is passed on as it is. *)
Lemma network_failure_propagates {S : Type} (t : transport S) (op : operation)
    (st st' : S) (detail : string) :
  t (sent (invoke op)) st = (Failure detail, st') →
  fst (perform t op st) = Raises (NetworkError detail).
Proof. intros Ht. unfold perform, BaseClient_request. by rewrite Ht. Qed.

(** ** The constructor *)

(** C8.  Whatever the other constructor arguments, constructing the client
    with an authorizer succeeds exactly when the authorizer is
    token-bearing, and constructing it with a basic-auth authorizer is
    refused. *)
Theorem constructor_accepts_only_token_authorizers
    (a : authorizer) (kwargs : dict) :
  ((SearchClient_init (Some a) kwargs = Returns (Client "search" (Some a) kwargs))
     ↔ token_bearing a)
  ∧ ((∃ e, SearchClient_init (Some a) kwargs = Raises e) ↔ ¬ token_bearing a)
  ∧ (∀ username password, ∃ e,
       SearchClient_init (Some (Basic username password)) kwargs = Raises e).
Proof.
  split; [|split].
  - by destruct a.
  - destruct a; cbn; split; intros Ha;
      first [by destruct Ha | by eexists | tauto].
  - intros username password. by eexists.
Qed.

(** ** Paths *)





Lemma append_cons (c : ascii) (a b : string) :
  String c a +:+ b = String c (a +:+ b).
Proof. reflexivity. Qed.








(** Each method builds the path of its row of the table, with the string
    form of the identifier (and the template name) trimmed of separators
    at their ends. *)
Lemma path_follows_table (op : operation) :
  req_path (sent (invoke op))
  = instantiate (operation_table op).2
      (trim_sep (py_str (op_index_id op))) (trim_sep (op_template_name op)).
Proof. by destruct op. Qed.

Lemma verb_follows_table (op : operation) :
  req_verb (sent (invoke op)) = (operation_table op).1.
Proof. by destruct op. Qed.

(** C4.  Every operation issues the verb of its row of the operation table
    and the path of that row, [{id}] being the segment the path
    construction makes of the identifier's string form (and [{name}] of
    the template name).  For every index identifier, [update_entry] issues
    PUT to [/v1/index/{id}/entry] with the given body; for every template
    name, [get_query_template] issues GET to
    [/v1/index/{id}/query_template/{name}] with no query parameters and no
    body. *)
Theorem operations_follow_table (op : operation) :
  req_verb (sent (invoke op)) = (operation_table op).1
  ∧ req_path (sent (invoke op))
    = instantiate (operation_table op).2
        (trim_sep (py_str (op_index_id op))) (trim_sep (op_template_name op))
  ∧ (∀ i data,
       sent (update_entry i data)
       = Request PUT ("/v1/index/" +:+ trim_sep (py_str i) +:+ "/entry")
           None (Some data))
  ∧ (∀ i name,
       sent (get_query_template i name)
       = Request GET
           ("/v1/index/" +:+ trim_sep (py_str i) +:+ "/query_template/"
              +:+ trim_sep name)
           None None).
Proof.
  split; [apply verb_follows_table|].
  split; [apply path_follows_table|].
  split; reflexivity.
Qed.


(** An identifier that holds a separator is no segment of its path, and an
    empty one leaves two separators in a row. *)
Example id_with_separator_is_no_segment :
  occurrences "a/b" (req_path (sent (get_index (PStr "a/b") ∅))) = 0.
Proof. reflexivity. Qed.

Example empty_id_doubles_separator :
  double_sep (req_path (sent (search (PStr "") (PStr "hello")
                                None None None None ∅))) = true.
Proof. reflexivity. Qed.





(** ** Round trip through the entry store *)

Lemma ends_with_app (front suffix : string) :
  ends_with suffix (front +:+ suffix) = true.
Proof.
  induction front as [|c rest IH].
  - change ("" +:+ suffix) with suffix.
    destruct suffix; cbn [ends_with]; by rewrite String.eqb_refl.
  - rewrite append_cons. cbn [ends_with]. rewrite IH. apply orb_true_r.
Qed.

(** [create_entry] and [get_entry] address the same resource, and it is an
    entry resource. *)
Lemma entry_path_ends_with_entry (i : string) :
  ends_with "/entry" (spec_qjoin_path ["v1/index"; i; "entry"]) = true.
Proof.
  change (spec_qjoin_path ["v1/index"; i; "entry"])
    with (("/v1/index/" +:+ trim_sep i) +:+ "/entry").
  apply ends_with_app.
Qed.

(** The stub does give back what [create_entry] filed, when it is handed
    the dictionary [merge_params] updated (what the statement call of
    [search] passes on) under the path of the entry methods. *)
Lemma entry_service_finds_created_entry (st : store) (i : pyval) (doc : json)
    (s : string) (oe : option string) :
  doc_key doc = Some (s, oe) →
  fst (BaseClient_request entry_service
         (get (qjoin_path ["v1/index"; safe_stringify i; "entry"])
            (Some (fst (merge_params ∅
                          [("subject", PStr s);
                           ("entry_id", default PNone (PStr <$> oe))]))))
         (snd (perform entry_service (OpCreateEntry i doc) st)))
  = Returns (Response doc 200).
Proof.
  intros Hkey.
  assert (snd (perform entry_service (OpCreateEntry i doc) st)
          = <[(spec_qjoin_path ["v1/index"; py_str i; "entry"], (s, oe))
                := doc]> st) as ->.
  { unfold perform, BaseClient_request, entry_service. cbn -[spec_qjoin_path].
    by rewrite entry_path_ends_with_entry, Hkey. }
  assert (params_key (Some (fst (merge_params ∅
                                   [("subject", PStr s);
                                    ("entry_id", default PNone (PStr <$> oe))])))
          = Some (s, oe)) as Hlookup by (by destruct oe).
  unfold BaseClient_request, entry_service.
  cbn -[spec_qjoin_path merge_params params_key].
  by rewrite entry_path_ends_with_entry, Hlookup, lookup_insert_eq.
Qed.

(** C9 (the code departs from it).  The claim: against the entry store
    stub, [create_entry] followed by [get_entry] with the same index
    identifier, subject and entry id returns the document submitted.  The
    code: [get_entry] hands the transport no parameters (it rebinds
    [params] to the result of [merge_params], which is [None]), so the stub
    cannot tell which entry is asked for: whatever was created before, and
    for every subject and entry id, [get_entry] raises the error the stub
    answers a lookup without subject with.  In particular the entry of the
    docstring of [create_entry] is filed and then not found. *)
Theorem get_entry_after_create_is_refused (st : store) (i s : pyval)
    (e : option pyval) (ps : dict) (doc : json) :
  fst (perform entry_service (OpGetEntry i s e ps)
         (snd (perform entry_service (OpCreateEntry i doc) st)))
  = Raises (SearchAPIError 400 (Some "BadRequest") (Some "no subject"))
  ∧ fst (perform entry_service (OpCreateEntry (PStr "abc-123") example_entry) ∅)
    = Returns (Response example_entry 200)
  ∧ fst (perform entry_service
           (OpGetEntry (PStr "abc-123") (PStr "https://example.com/foo/bar")
              (Some (PStr "foo/bar")) ∅)
           (snd (perform entry_service
                   (OpCreateEntry (PStr "abc-123") example_entry) ∅)))
    = Raises (SearchAPIError 400 (Some "BadRequest") (Some "no subject")).
Proof.
  assert (∀ st' i' s' e' ps',
            fst (perform entry_service (OpGetEntry i' s' e' ps') st')
            = Raises (SearchAPIError 400 (Some "BadRequest")
                        (Some "no subject"))) as Hrefused.
  { intros st' i' s' e' ps'. unfold perform, BaseClient_request, entry_service.
    cbn -[spec_qjoin_path]. by rewrite entry_path_ends_with_entry. }
  split; [apply Hrefused|]. split; [reflexivity|apply Hrefused].
Qed.

(** ** All thirteen methods, whatever the helpers do *)

Ltac unfold_methods :=
  unfold get_index, search, post_search, ingest, delete_by_query,
    get_subject, delete_subject, get_entry, create_entry, update_entry,
    delete_entry, get_query_template, get_query_template_list.

Section EveryMethod.
Context `{GlobusBase}.

(** X2.  On one index, [search] and [post_search] address the same path,
    and so do [create_entry], [update_entry], [get_entry] and
    [delete_entry], whatever the other arguments; the path of
    [get_query_template] is built from the arguments of
    [get_query_template_list] followed by the template name. *)
Theorem methods_share_resource_paths (i q s s' : pyval)
    (off lim qt adv e e' : option pyval) (ps ps' ps'' : dict)
    (d d' d'' : json) (name : string) :
  req_path (sent (search i q off lim qt adv ps))
  = req_path (sent (post_search i d))
  ∧ req_path (sent (create_entry i d')) = req_path (sent (update_entry i d''))
  ∧ req_path (sent (create_entry i d')) = req_path (sent (get_entry i s e ps'))
  ∧ req_path (sent (create_entry i d'))
    = req_path (sent (delete_entry i s' e' ps''))
  ∧ ∃ parts,
      req_path (sent (get_query_template_list i)) = qjoin_path parts
      ∧ req_path (sent (get_query_template i name))
        = qjoin_path (parts ++ [name]).
Proof. repeat split. by eexists. Qed.

(** X3.  The body of a request is the caller's [data], untouched, for the
    methods that take one, and absent for the others; the methods that
    send a body are the POST and PUT ones and send no query parameters;
    GET and DELETE requests never carry a body. *)
Theorem body_is_the_callers_data (op : operation) :
  req_body (sent (invoke op)) = op_data op
  ∧ match req_verb (sent (invoke op)) with
    | POST | PUT =>
        is_Some (op_data op) ∧ req_params (sent (invoke op)) = None
    | GET | DELETE => op_data op = None
    end.
Proof. destruct op; split; by eauto. Qed.

(** X4.  The line a method logs is well formed and names the index the
    request goes to: the format string starts with ["SearchClient."], has
    as many [{}] fields as values are formatted into it, and the first
    value is the string form of the index identifier; a method that takes
    [data] logs nothing but that identifier. *)
Theorem log_line_is_well_formed (op : operation) :
  String.prefix "SearchClient." (log_fmt (logged (invoke op))) = true
  ∧ placeholders (log_fmt (logged (invoke op)))
    = length (log_args (logged (invoke op)))
  ∧ head (log_args (logged (invoke op)))
    = Some (PStr (safe_stringify (op_index_id op)))
  ∧ match op_data op with
    | Some _ =>
        log_args (logged (invoke op)) = [PStr (safe_stringify (op_index_id op))]
    | None => True
    end.
Proof. by destruct op. Qed.

(** X5.  A call depends on the index identifier only through its string
    form: two identifiers with the same string form give the same log
    line and the same request, for every method. *)
Theorem same_string_form_same_call (i j : pyval) (op : operation) :
  safe_stringify i = safe_stringify j →
  invoke (with_index_id i op) = invoke (with_index_id j op).
Proof.
  intros Hij. destruct op; cbn [invoke with_index_id];
    unfold_methods; by rewrite Hij.
Qed.

(** X6.  With a [merge_params] that returns nothing, the four methods
    that bind its value ([get_subject], [delete_subject], [get_entry],
    [delete_entry]) hand the transport no parameters at all, while
    [search], which uses the dictionary itself, still hands over the
    merged dictionary, and [get_index] the caller's own. *)
Theorem params_lost_where_return_value_is_bound
    (i s q : pyval) (e off lim qt adv : option pyval) (ps : dict) :
  (∀ base more, snd (merge_params base more) = None) →
  (req_params (sent (get_subject i s ps)) = None
   ∧ req_params (sent (delete_subject i s ps)) = None
   ∧ req_params (sent (get_entry i s e ps)) = None
   ∧ req_params (sent (delete_entry i s e ps)) = None)
  ∧ req_params (sent (search i q off lim qt adv ps))
    = Some (fst (merge_params ps
                   [("q", q); ("offset", default (PInt 0) off);
                    ("limit", default (PInt 10) lim);
                    ("query_template", default PNone qt);
                    ("advanced", default (PBool false) adv)]))
  ∧ req_params (sent (get_index i ps)) = Some ps.
Proof.
  intros Hnone. split; [|by split].
  cbn. by rewrite !Hnone.
Qed.

End EveryMethod.

Lemma same_string_form_same_call_witness :
  py_str (PInt 42) = py_str (PStr "42")
  ∧ invoke (OpIngest (PInt 42) JNull) = invoke (OpIngest (PStr "42") JNull).
Proof.
  split; [reflexivity|].
  apply (same_string_form_same_call (PInt 42) (PStr "42") (OpIngest PNone JNull)).
  reflexivity.
Defined.

Lemma params_lost_where_return_value_is_bound_witness :
  (∀ base more, snd (@merge_params update_in_place_base base more) = None)
  ∧ req_params
      (sent (@get_subject update_in_place_base (PStr "abc-123")
               (PStr "http://example.com/abc") {["limit" := PInt 5]}))
    = None.
Proof.
  split; [reflexivity|].
  refine (proj1 (proj1 (@params_lost_where_return_value_is_bound
                          update_in_place_base (PStr "abc-123")
                          (PStr "http://example.com/abc") (PStr "hello")
                          None None None None None {["limit" := PInt 5]} _))).
  reflexivity.
Defined.
